(** * games/Server.py: the header policy of [BrotliGzipHTTPRequestHandler]

    The server subclasses [http.server.SimpleHTTPRequestHandler] and overrides
    a single method, [end_headers], which looks at [self.path] and queues
    [Content-Encoding] / [Content-Type] headers for pre-compressed assets
    before handing over to the parent's [end_headers].

    The development has four layers:
    - [PyStr]: Python's [str.endswith] on [string], with its specification;
    - [Server]: the handler interface the method runs against, the method
      itself, and a recording handler that logs every call made on it;
    - [Lookup]: the method on handler objects whose [path] attribute may be
      missing, where a lookup can raise;
    - the properties of the header policy. *)

From Stdlib Require Import Strings.String Strings.Ascii.
From Stdlib Require Import Lists.List Bool.Bool Arith.Arith Arith.PeanoNat.
From Stdlib Require Import micromega.Lia.
Import ListNotations.

Local Open Scope list_scope.
Local Open Scope string_scope.

(** ** Python strings *)

Module PyStr.

(** [s.endswith(suffix)] with the default [start] and [end]: the suffix must
    fit, and the last [len(suffix)] characters of [s] must equal it. *)
Definition endswith (s suffix : string) : bool :=
  Nat.leb (String.length suffix) (String.length s) &&
  (substring (String.length s - String.length suffix) (String.length suffix) s
     =? suffix)%string.

(** The mathematical reading of "[s] ends with [suffix]". *)
Definition ends_with (s suffix : string) : Prop :=
  exists pre : string, s = pre ++ suffix.

Lemma length_append (s t : string) :
  String.length (s ++ t) = String.length s + String.length t.
Proof. induction s as [|c s IH]; simpl; [reflexivity | now rewrite IH]. Qed.

Lemma substring_all (s : string) : substring 0 (String.length s) s = s.
Proof. induction s as [|c s IH]; simpl; [reflexivity | now rewrite IH]. Qed.

Lemma substring_skip (pre s : string) (m : nat) :
  substring (String.length pre) m (pre ++ s) = substring 0 m s.
Proof. induction pre as [|c pre IH]; simpl; [reflexivity | exact IH]. Qed.

(** Cutting a string at [n] and gluing the two pieces gives it back. *)
Lemma substring_split (s : string) : forall n,
  n <= String.length s ->
  s = substring 0 n s ++ substring n (String.length s - n) s.
Proof.
  induction s as [|c s IH]; intros n Hn; simpl in *.
  - destruct n; [reflexivity | lia].
  - destruct n as [|n]; simpl.
    + now rewrite substring_all.
    + f_equal. apply IH. lia.
Qed.

Lemma endswith_append (pre suffix : string) :
  endswith (pre ++ suffix) suffix = true.
Proof.
  unfold endswith. rewrite length_append.
  apply andb_true_intro; split.
  - apply Nat.leb_le. lia.
  - replace (String.length pre + String.length suffix - String.length suffix)
      with (String.length pre) by lia.
    rewrite substring_skip, substring_all. apply String.eqb_refl.
Qed.

(** [endswith] decides [ends_with]. *)
Lemma endswith_spec (s suffix : string) :
  endswith s suffix = true <-> ends_with s suffix.
Proof.
  split.
  - unfold endswith. intros H. apply andb_prop in H as [Hlen Heq].
    apply Nat.leb_le in Hlen. apply String.eqb_eq in Heq.
    exists (substring 0 (String.length s - String.length suffix) s).
    rewrite (substring_split s (String.length s - String.length suffix))
      at 1 by lia.
    f_equal.
    replace (String.length s - (String.length s - String.length suffix))
      with (String.length suffix) by lia.
    exact Heq.
  - intros [pre ->]. apply endswith_append.
Qed.

Lemma endswith_false (s suffix : string) :
  endswith s suffix = false <-> ~ ends_with s suffix.
Proof.
  rewrite <- endswith_spec. destruct (endswith s suffix); split; intros H;
    try reflexivity; try discriminate; try (now intros ?); now contradiction H.
Qed.

(** Skipping a known prefix. *)
Lemma substring_skip_add (pre s : string) (n m : nat) :
  substring (String.length pre + n) m (pre ++ s) = substring n m s.
Proof. induction pre as [|c pre IH]; simpl; [reflexivity | exact IH]. Qed.

(** A test for a suffix no longer than [tail] only looks at [tail]. *)
Lemma endswith_append_tail (pre tail suffix : string) :
  String.length suffix <= String.length tail ->
  endswith (pre ++ tail) suffix = endswith tail suffix.
Proof.
  intros Hlen. unfold endswith. rewrite length_append.
  replace (String.length pre + String.length tail - String.length suffix)
    with (String.length pre + (String.length tail - String.length suffix))
    by lia.
  rewrite substring_skip_add. f_equal.
  apply Nat.leb_le in Hlen as Hb. rewrite Hb.
  apply Nat.leb_le. lia.
Qed.

(** Whether character [c] occurs in [s]. *)
Fixpoint occurs (c : ascii) (s : string) : bool :=
  match s with
  | "" => false
  | String d s => Ascii.eqb c d || occurs c s
  end.

Lemma occurs_append (c : ascii) (s t : string) :
  occurs c (s ++ String c t) = true.
Proof.
  induction s as [|d s IH]; simpl.
  - now rewrite Ascii.eqb_refl.
  - rewrite IH. apply orb_true_r.
Qed.

(** A suffix free of the character [c] lies wholly after the last [c]. *)
Lemma ends_with_after (c : ascii) (suffix q : string) :
  occurs c suffix = false ->
  forall f, ends_with (f ++ String c q) suffix -> ends_with q suffix.
Proof.
  intros Hfree f. induction f as [|a f IH]; intros [pre Hpre].
  - destruct pre as [|a' pre]; simpl in Hpre.
    + rewrite <- Hpre in Hfree. simpl in Hfree.
      rewrite Ascii.eqb_refl in Hfree. discriminate.
    + injection Hpre as _ Hq. now exists pre.
  - destruct pre as [|a' pre]; simpl in Hpre.
    + rewrite <- Hpre in Hfree. simpl in Hfree.
      rewrite occurs_append, orb_true_r in Hfree. discriminate.
    + injection Hpre as _ Hq. apply IH. now exists pre.
Qed.

End PyStr.

(** ** The request handler *)

Module Server.
Import PyStr.

(** What [end_headers] needs from the object it runs on: the attribute
    [self.path], and the two methods of the parent class it calls,
    [self.send_header(keyword, value)] and [super().end_headers()].  The parent
    class is Python's [http.server.SimpleHTTPRequestHandler]; its methods
    mutate the handler, which is threaded here as an explicit state.  [path]
    is the value of the attribute on a handler that has one; the lookup
    itself, which fails on a handler that has none, is in [Lookup] below. *)
Class RequestHandler (H : Type) : Type := {
  path : H -> string;
  send_header : string -> string -> H -> H;
  super_end_headers : H -> H
}.

(** The parent's [send_header] queues a header line and leaves the request
    target alone. *)
Class PathStable (H : Type) `{RequestHandler H} : Prop :=
  path_send_header : forall (keyword value : string) (self : H),
    path (send_header keyword value self) = path self.

(** [BrotliGzipHTTPRequestHandler.end_headers] *)
Definition end_headers {H : Type} `{RequestHandler H} (self : H) : H :=
  let self :=
    (* Brotli *)
    if endswith (path self) ".br" then
      let self := send_header "Content-Encoding" "br" self in
      if endswith (path self) ".js.br" then
        send_header "Content-Type" "application/javascript" self
      else if endswith (path self) ".wasm.br" then
        send_header "Content-Type" "application/wasm" self
      else if endswith (path self) ".data.br" then
        send_header "Content-Type" "application/octet-stream" self
      else if endswith (path self) ".json.br" then
        send_header "Content-Type" "application/json" self
      else self
    (* Gzip *)
    else if endswith (path self) ".gz" then
      let self := send_header "Content-Encoding" "gzip" self in
      if endswith (path self) ".js.gz" then
        send_header "Content-Type" "application/javascript" self
      else if endswith (path self) ".wasm.gz" then
        send_header "Content-Type" "application/wasm" self
      else if endswith (path self) ".data.gz" then
        send_header "Content-Type" "application/octet-stream" self
      else if endswith (path self) ".json.gz" then
        send_header "Content-Type" "application/json" self
      else self
    else self in
  super_end_headers self.

(** *** A handler that records what is done to it

    The calls a response is built from.  [SendResponse], [SendHeader] and
    [Write] are what the parent class does before and after [end_headers]
    (status line, its own headers, body); [EndHeaders] is the parent's
    header finalization. *)
Inductive call : Type :=
  | SendResponse (code : nat)
  | SendHeader (keyword value : string)
  | EndHeaders
  | Write (data : string).

Record recorder : Type := Recorder {
  rec_path : string;        (* self.path *)
  rec_calls : list call     (* calls made on the handler so far, oldest first *)
}.

Definition record (c : call) (r : recorder) : recorder :=
  {| rec_path := rec_path r; rec_calls := (rec_calls r ++ [c])%list |}.

#[export] Instance recorder_handler : RequestHandler recorder := {
  path := rec_path;
  send_header := fun keyword value => record (SendHeader keyword value);
  super_end_headers := record EndHeaders
}.

#[export] Instance recorder_path_stable : PathStable recorder.
Proof. intros keyword value self. reflexivity. Qed.

(** A handler for a request whose target is [p], nothing sent yet. *)
Definition fresh (p : string) : recorder :=
  {| rec_path := p; rec_calls := [] |}.

(** The headers among a list of calls, in order. *)
Fixpoint headers_of (cs : list call) : list (string * string) :=
  match cs with
  | [] => []
  | SendHeader keyword value :: cs => (keyword, value) :: headers_of cs
  | _ :: cs => headers_of cs
  end.

(** How often the parent's [end_headers] ran. *)
Fixpoint finalizations (cs : list call) : nat :=
  match cs with
  | [] => 0
  | EndHeaders :: cs => S (finalizations cs)
  | _ :: cs => finalizations cs
  end.

(** The header decision: the headers [end_headers] sends for target [p]. *)
Definition header_decision (p : string) : list (string * string) :=
  headers_of (rec_calls (end_headers (fresh p))).

(** The calls one run of [end_headers] adds to a handler's record. *)
Definition added_calls (r : recorder) : list call :=
  skipn (List.length (rec_calls r)) (rec_calls (end_headers r)).

(** A 200 response for "/app.js.br" whose status line and own headers are
    already queued. *)
Definition served_app_js : recorder :=
  {| rec_path := "/app.js.br";
     rec_calls := [SendResponse 200;
                   SendHeader "Content-type" "application/octet-stream";
                   SendHeader "Content-Length" "1024"] |}.

(** Replaying a list of headers on any handler. *)
Definition send_headers {H : Type} `{RequestHandler H}
    (hs : list (string * string)) (self : H) : H :=
  fold_left (fun self kv => send_header (fst kv) (snd kv) self) hs self.

(** The values a header list gives for one keyword, in order. *)
Definition values_of (keyword : string) (hs : list (string * string)) : list string :=
  map snd (filter (fun kv => (fst kv =? keyword)%string) hs).

(** A header as the call that sends it. *)
Definition header_call (kv : string * string) : call :=
  SendHeader (fst kv) (snd kv).

(** The four-way dispatch on the asset kind that both branches of
    [end_headers] share, as the headers it queues; [header_decision_eq]
    relates it to the method. *)
Definition content_type_for (p enc : string) : list (string * string) :=
  if endswith p (".js" ++ enc) then [("Content-Type", "application/javascript")]
  else if endswith p (".wasm" ++ enc) then [("Content-Type", "application/wasm")]
  else if endswith p (".data" ++ enc) then [("Content-Type", "application/octet-stream")]
  else if endswith p (".json" ++ enc) then [("Content-Type", "application/json")]
  else [].

(** Every outcome of the policy: no header, an encoding alone, or an
    encoding with one of the four content types. *)
Definition policy_table : list (list (string * string)) :=
  [ [];
    [("Content-Encoding", "br")];
    [("Content-Encoding", "br"); ("Content-Type", "application/javascript")];
    [("Content-Encoding", "br"); ("Content-Type", "application/wasm")];
    [("Content-Encoding", "br"); ("Content-Type", "application/octet-stream")];
    [("Content-Encoding", "br"); ("Content-Type", "application/json")];
    [("Content-Encoding", "gzip")];
    [("Content-Encoding", "gzip"); ("Content-Type", "application/javascript")];
    [("Content-Encoding", "gzip"); ("Content-Type", "application/wasm")];
    [("Content-Encoding", "gzip"); ("Content-Type", "application/octet-stream")];
    [("Content-Encoding", "gzip"); ("Content-Type", "application/json")] ].

(** Every character that occurs in a suffix [end_headers] tests. *)
Definition suffix_characters : string := ".js.wasm.data.json.br.gz".

(** Whether every character of [s] occurs in [t]. *)
Fixpoint all_occur (s t : string) : bool :=
  match s with
  | "" => true
  | String c s => occurs c t && all_occur s t
  end.

Example scenario_1 :
  header_decision "/app.js.br" =
    [("Content-Encoding", "br"); ("Content-Type", "application/javascript")].
Proof. reflexivity. Qed.

Example scenario_2 :
  header_decision "/module.wasm.gz" =
    [("Content-Encoding", "gzip"); ("Content-Type", "application/wasm")].
Proof. reflexivity. Qed.

Example scenario_3 : header_decision "/data.bin" = [].
Proof. reflexivity. Qed.

Example scenario_4 :
  header_decision "/payload.data.br" =
    [("Content-Encoding", "br"); ("Content-Type", "application/octet-stream")].
Proof. reflexivity. Qed.

(** *** The shape of one run *)

(** Unfolding [end_headers] on a fresh recorder, branch by branch. *)
Lemma header_decision_eq (p : string) :
  header_decision p =
    if endswith p ".br" then
      ("Content-Encoding", "br") :: content_type_for p ".br"
    else if endswith p ".gz" then
      ("Content-Encoding", "gzip") :: content_type_for p ".gz"
    else [].
Proof.
  unfold header_decision, end_headers, content_type_for; cbn.
  destruct (endswith p ".br").
  - destruct (endswith p ".js.br"); [reflexivity|].
    destruct (endswith p ".wasm.br"); [reflexivity|].
    destruct (endswith p ".data.br"); [reflexivity|].
    destruct (endswith p ".json.br"); reflexivity.
  - destruct (endswith p ".gz"); [|reflexivity].
    destruct (endswith p ".js.gz"); [reflexivity|].
    destruct (endswith p ".wasm.gz"); [reflexivity|].
    destruct (endswith p ".data.gz"); [reflexivity|].
    destruct (endswith p ".json.gz"); reflexivity.
Qed.

(** On a recorder with any history, a run appends the decided headers and
    then the parent's finalization, and nothing else. *)
Lemma end_headers_calls (r : recorder) :
  rec_calls (end_headers r) =
    (rec_calls r ++ map header_call (header_decision (rec_path r))
       ++ [EndHeaders])%list.
Proof.
  rewrite header_decision_eq.
  unfold end_headers, content_type_for; cbn.
  destruct (endswith (rec_path r) ".br").
  - destruct (endswith (rec_path r) ".js.br");
      [cbn; now rewrite <- !app_assoc|].
    destruct (endswith (rec_path r) ".wasm.br");
      [cbn; now rewrite <- !app_assoc|].
    destruct (endswith (rec_path r) ".data.br");
      [cbn; now rewrite <- !app_assoc|].
    destruct (endswith (rec_path r) ".json.br");
      cbn; now rewrite <- !app_assoc.
  - destruct (endswith (rec_path r) ".gz"); [|reflexivity].
    destruct (endswith (rec_path r) ".js.gz");
      [cbn; now rewrite <- !app_assoc|].
    destruct (endswith (rec_path r) ".wasm.gz");
      [cbn; now rewrite <- !app_assoc|].
    destruct (endswith (rec_path r) ".data.gz");
      [cbn; now rewrite <- !app_assoc|].
    destruct (endswith (rec_path r) ".json.gz");
      cbn; now rewrite <- !app_assoc.
Qed.

Lemma end_headers_path (r : recorder) : rec_path (end_headers r) = rec_path r.
Proof.
  unfold end_headers; cbn.
  repeat match goal with
         | |- context [if ?b then _ else _] => destruct b; cbn
         end; reflexivity.
Qed.

Lemma added_calls_eq (r : recorder) :
  added_calls r =
    (map header_call (header_decision (rec_path r)) ++ [EndHeaders])%list.
Proof.
  unfold added_calls. rewrite end_headers_calls.
  rewrite skipn_app, skipn_all, Nat.sub_diag. reflexivity.
Qed.

Lemma headers_of_header_calls (hs : list (string * string)) :
  headers_of (map header_call hs) = hs.
Proof.
  induction hs as [|[k v] hs IH]; cbn; [reflexivity | now rewrite IH].
Qed.

Lemma headers_of_app (cs ds : list call) :
  headers_of (cs ++ ds) = (headers_of cs ++ headers_of ds)%list.
Proof.
  induction cs as [|c cs IH]; cbn; [reflexivity|].
  destruct c; cbn; now rewrite IH.
Qed.

Lemma finalizations_header_calls (hs : list (string * string)) :
  finalizations (map header_call hs) = 0.
Proof. induction hs as [|kv hs IH]; cbn; [reflexivity | exact IH]. Qed.

Lemma finalizations_app (cs ds : list call) :
  finalizations (cs ++ ds) = finalizations cs + finalizations ds.
Proof.
  induction cs as [|c cs IH]; cbn; [reflexivity|].
  destruct c; cbn; now rewrite IH.
Qed.

(** *** Any handler

    The recorder is representative: on every handler whose [send_header]
    leaves [self.path] alone, a run is the decided headers replayed through
    [send_header], followed by the parent's [end_headers]. *)
Section AnyHandler.
Context {H : Type} `{PathStable H}.

Lemma end_headers_simulation (self : H) :
  end_headers self =
    super_end_headers (send_headers (header_decision (path self)) self).
Proof.
  rewrite header_decision_eq.
  unfold end_headers, content_type_for. rewrite !path_send_header.
  cbn [append].
  destruct (endswith (path self) ".br").
  - destruct (endswith (path self) ".js.br"); [reflexivity|].
    destruct (endswith (path self) ".wasm.br"); [reflexivity|].
    destruct (endswith (path self) ".data.br"); [reflexivity|].
    destruct (endswith (path self) ".json.br"); reflexivity.
  - destruct (endswith (path self) ".gz"); [|reflexivity].
    destruct (endswith (path self) ".js.gz"); [reflexivity|].
    destruct (endswith (path self) ".wasm.gz"); [reflexivity|].
    destruct (endswith (path self) ".data.gz"); [reflexivity|].
    destruct (endswith (path self) ".json.gz"); reflexivity.
Qed.

(** Whatever [send_header] leaves alone is still as it was when the
    parent's [end_headers] takes over. *)
Lemma send_headers_frame {O : Type} (obs : H -> O) :
  (forall keyword value h, obs (send_header keyword value h) = obs h) ->
  forall hs self, obs (send_headers hs self) = obs self.
Proof.
  intros Hobs hs. unfold send_headers.
  induction hs as [|kv hs IH]; intros self; cbn; [reflexivity|].
  now rewrite IH, Hobs.
Qed.
End AnyHandler.

(** *** Suffix bookkeeping *)

(** Rewrites every suffix test on [pre ++ tail] whose suffix fits in [tail]
    into a test on the literal [tail], and evaluates it. *)
Ltac eval_suffix_tests :=
  repeat match goal with
         | |- context [endswith (?pre ++ ?tail) ?suffix] =>
             rewrite (endswith_append_tail pre tail suffix) by (cbn; lia)
         end;
  cbn.

(** The two encodings exclude each other: no string ends in both. *)
Lemma gz_not_br (p : string) : ends_with p ".gz" -> endswith p ".br" = false.
Proof. intros [pre ->]. now eval_suffix_tests. Qed.

Lemma br_not_gz (p : string) : ends_with p ".br" -> endswith p ".gz" = false.
Proof. intros [pre ->]. now eval_suffix_tests. Qed.

Lemma content_type_for_keys (p enc v : string) :
  In ("Content-Encoding", v) (content_type_for p enc) -> False.
Proof.
  unfold content_type_for.
  repeat match goal with
         | |- context [if ?b then _ else _] => destruct b
         end; cbn; intros Hin;
    repeat (destruct Hin as [Hin|Hin]; [discriminate Hin|]); exact Hin.
Qed.

(** Two suffixes of one string are comparable: the shorter one is a suffix
    of the longer one. *)
Lemma ends_with_both (s a b : string) :
  ends_with s a -> ends_with s b -> String.length a <= String.length b ->
  endswith b a = true.
Proof.
  intros Ha [pre ->] Hlen.
  rewrite <- (endswith_append_tail pre b a Hlen). now apply endswith_spec.
Qed.

(** Closes a goal with a hypothesis that [pre ++ tail] ends in a suffix the
    literal [tail] is incomparable with. *)
Ltac refute_suffix :=
  match goal with
  | Hlong : ends_with (?pre ++ ?tail) ?suffix |- _ =>
      let Hcmp := fresh "Hcmp" in
      first
        [ pose proof (ends_with_both _ suffix tail Hlong
                        (ex_intro _ pre eq_refl) ltac:(cbn; lia)) as Hcmp
        | pose proof (ends_with_both _ tail suffix
                        (ex_intro _ pre eq_refl) Hlong ltac:(cbn; lia)) as Hcmp ];
      vm_compute in Hcmp; discriminate Hcmp
  end.

Lemma content_type_for_no_encoding (p enc : string) :
  values_of "Content-Encoding" (content_type_for p enc) = [].
Proof.
  unfold content_type_for.
  repeat match goal with
         | |- context [if ?b then _ else _] => destruct b
         end; reflexivity.
Qed.

Lemma content_type_for_default (p enc : string) :
  ~ ends_with p (".js" ++ enc) -> ~ ends_with p (".wasm" ++ enc) ->
  ~ ends_with p (".data" ++ enc) -> ~ ends_with p (".json" ++ enc) ->
  content_type_for p enc = [].
Proof.
  intros Hjs Hwasm Hdata Hjson. unfold content_type_for.
  apply endswith_false in Hjs, Hwasm, Hdata, Hjson.
  now rewrite Hjs, Hwasm, Hdata, Hjson.
Qed.

(** The Content-Encoding values of a decision. *)
Lemma content_encoding_values (p : string) :
  values_of "Content-Encoding" (header_decision p) =
    if endswith p ".br" then ["br"]
    else if endswith p ".gz" then ["gzip"]
    else [].
Proof.
  rewrite header_decision_eq.
  destruct (endswith p ".br"); [|destruct (endswith p ".gz")];
    [| |reflexivity].
  - change (values_of "Content-Encoding"
              (("Content-Encoding", "br") :: content_type_for p ".br"))
      with ("br" :: values_of "Content-Encoding" (content_type_for p ".br")).
    now rewrite content_type_for_no_encoding.
  - change (values_of "Content-Encoding"
              (("Content-Encoding", "gzip") :: content_type_for p ".gz"))
      with ("gzip" :: values_of "Content-Encoding" (content_type_for p ".gz")).
    now rewrite content_type_for_no_encoding.
Qed.

Lemma content_encoding_br_sent (p : string) :
  ends_with p ".br" -> In ("Content-Encoding", "br") (header_decision p).
Proof.
  intros Hbr. rewrite header_decision_eq.
  apply endswith_spec in Hbr. rewrite Hbr. now left.
Qed.

Lemma content_encoding_gzip_sent (p : string) :
  ends_with p ".gz" -> In ("Content-Encoding", "gzip") (header_decision p).
Proof.
  intros Hgz. rewrite header_decision_eq, (gz_not_br p Hgz).
  apply endswith_spec in Hgz. rewrite Hgz. now left.
Qed.

(** Where a Content-Encoding header comes from. *)
Lemma content_encoding_br_only (p : string) :
  In ("Content-Encoding", "br") (header_decision p) -> endswith p ".br" = true.
Proof.
  rewrite header_decision_eq.
  destruct (endswith p ".br"); [reflexivity|].
  destruct (endswith p ".gz"); [|intros []].
  intros [Heq|Hin]; [discriminate Heq|].
  now apply content_type_for_keys in Hin.
Qed.

Lemma content_encoding_gzip_only (p : string) :
  In ("Content-Encoding", "gzip") (header_decision p) -> ends_with p ".gz".
Proof.
  rewrite header_decision_eq.
  destruct (endswith p ".br").
  - intros [Heq|Hin]; [discriminate Heq|].
    now apply content_type_for_keys in Hin.
  - destruct (endswith p ".gz") eqn:Hgz; [intros _; now apply endswith_spec|].
    intros [].
Qed.

Lemma endswith_short (s suffix : string) :
  String.length s < String.length suffix -> endswith s suffix = false.
Proof.
  intros Hlen. unfold endswith.
  apply Nat.leb_gt in Hlen. now rewrite Hlen.
Qed.

End Server.

(** ** The attribute lookup

    [self.path] is an attribute the parent class assigns while it parses the
    request line.  A handler that answers before that has no such attribute,
    and looking it up raises.  This layer runs [end_headers] on handler
    objects whose [path] may be missing, with every [self.path] of the source
    a lookup of its own. *)

Module Lookup.
Import PyStr Server.

(** The exception [end_headers] can raise by itself. *)
Inductive exception : Type :=
  | AttributeError (attribute : string).

(** A call returns a value or raises. *)
Definition result (A : Type) : Type := (exception + A)%type.

Definition ok {A : Type} (a : A) : result A := inr a.

Definition raise {A : Type} (e : exception) : result A := inl e.

Definition bind {A B : Type} (m : result A) (k : A -> result B) : result B :=
  match m with
  | inl e => inl e
  | inr a => k a
  end.

Notation "x <- m ;; k" := (bind m (fun x => k))
  (at level 61, m at next level, right associativity).

(** A handler object: its [path] attribute, if assigned, and the two
    methods of the parent class. *)
Class HandlerObject (H : Type) : Type := {
  path_attr : H -> option string;
  obj_send_header : string -> string -> H -> H;
  obj_super_end_headers : H -> H
}.

(** The parent's [send_header] neither assigns nor deletes [self.path]. *)
Class AttrStable (H : Type) `{HandlerObject H} : Prop :=
  path_attr_send_header : forall (keyword value : string) (self : H),
    path_attr (obj_send_header keyword value self) = path_attr self.

(** [self.path] *)
Definition self_path {H : Type} `{HandlerObject H} (self : H) : result string :=
  match path_attr self with
  | Some p => ok p
  | None => raise (AttributeError "path")
  end.

(** [BrotliGzipHTTPRequestHandler.end_headers], lookups included. *)
Definition end_headers {H : Type} `{HandlerObject H} (self : H) : result H :=
  self <-
    (p <- self_path self ;;
     (* Brotli *)
     if endswith p ".br" then
       let self := obj_send_header "Content-Encoding" "br" self in
       p <- self_path self ;;
       if endswith p ".js.br" then
         ok (obj_send_header "Content-Type" "application/javascript" self)
       else (p <- self_path self ;;
       if endswith p ".wasm.br" then
         ok (obj_send_header "Content-Type" "application/wasm" self)
       else (p <- self_path self ;;
       if endswith p ".data.br" then
         ok (obj_send_header "Content-Type" "application/octet-stream" self)
       else (p <- self_path self ;;
       if endswith p ".json.br" then
         ok (obj_send_header "Content-Type" "application/json" self)
       else ok self)))
     (* Gzip *)
     else (p <- self_path self ;;
     if endswith p ".gz" then
       let self := obj_send_header "Content-Encoding" "gzip" self in
       p <- self_path self ;;
       if endswith p ".js.gz" then
         ok (obj_send_header "Content-Type" "application/javascript" self)
       else (p <- self_path self ;;
       if endswith p ".wasm.gz" then
         ok (obj_send_header "Content-Type" "application/wasm" self)
       else (p <- self_path self ;;
       if endswith p ".data.gz" then
         ok (obj_send_header "Content-Type" "application/octet-stream" self)
       else (p <- self_path self ;;
       if endswith p ".json.gz" then
         ok (obj_send_header "Content-Type" "application/json" self)
       else ok self)))
     else ok self)) ;;
  ok (obj_super_end_headers self).

(** Replaying a list of headers on a handler object. *)
Definition obj_send_headers {H : Type} `{HandlerObject H}
    (hs : list (string * string)) (self : H) : H :=
  fold_left (fun self kv => obj_send_header (fst kv) (snd kv) self) hs self.

(** A handler object seen through the interface of [Server]: the value of
    [path] is that of the attribute where there is one. *)
Definition as_handler {H : Type} `{HandlerObject H} : RequestHandler H := {|
  path := fun self => match path_attr self with Some p => p | None => "" end;
  send_header := obj_send_header;
  super_end_headers := obj_super_end_headers
|}.

(** *** A recording handler object *)

Record object_recorder : Type := ObjectRecorder {
  obj_path : option string;   (* self.path, if assigned *)
  obj_calls : list call       (* calls made on the handler so far *)
}.

Definition obj_record (c : call) (r : object_recorder) : object_recorder :=
  {| obj_path := obj_path r; obj_calls := (obj_calls r ++ [c])%list |}.

#[global] Instance object_recorder_handler : HandlerObject object_recorder := {
  path_attr := obj_path;
  obj_send_header := fun keyword value => obj_record (SendHeader keyword value);
  obj_super_end_headers := obj_record EndHeaders
}.

#[global] Instance object_recorder_stable : AttrStable object_recorder.
Proof. intros keyword value self. reflexivity. Qed.

(** A reply as the parent class has it when it calls [end_headers]: the
    status line is queued, then the parent's own headers. *)
Definition reply_in_progress
    (target : option string) (code : nat) (queued : list (string * string))
    : object_recorder :=
  {| obj_path := target;
     obj_calls := SendResponse code :: map header_call queued |}.

(** The reply once [end_headers] has added [decided] and finalized. *)
Definition reply_finalized
    (target : option string) (code : nat)
    (queued decided : list (string * string)) : object_recorder :=
  {| obj_path := target;
     obj_calls :=
       SendResponse code
         :: (map header_call queued ++ map header_call decided
               ++ [EndHeaders])%list |}.

(** *** Lookups that succeed, lookups that fail *)

Example served_with_lookup :
  end_headers (reply_in_progress (Some "/app.js.br") 200 []) =
    ok (reply_finalized (Some "/app.js.br") 200 []
          [("Content-Encoding", "br");
           ("Content-Type", "application/javascript")]).
Proof. reflexivity. Qed.

Example bad_request_line :
  end_headers (reply_in_progress None 400 [("Connection", "close")]) =
    raise (AttributeError "path").
Proof. reflexivity. Qed.

Lemma as_handler_stable {H : Type} `{AttrStable H} :
  @PathStable H as_handler.
Proof.
  intros keyword value self. cbn. now rewrite path_attr_send_header.
Qed.

(** With the attribute assigned every lookup succeeds, and the method is
    the one of [Server]. *)
Lemma end_headers_assigned {H : Type} `{AttrStable H} (self : H) (p : string) :
  path_attr self = Some p ->
  end_headers self = ok (@Server.end_headers H as_handler self).
Proof.
  intros Hp. unfold end_headers, Server.end_headers, self_path. cbn.
  rewrite !path_attr_send_header, Hp. cbn.
  destruct (endswith p ".br"); cbn.
  - destruct (endswith p ".js.br"); [reflexivity|]. cbn.
    destruct (endswith p ".wasm.br"); [reflexivity|]. cbn.
    destruct (endswith p ".data.br"); [reflexivity|]. cbn.
    destruct (endswith p ".json.br"); reflexivity.
  - destruct (endswith p ".gz"); [|reflexivity]. cbn.
    destruct (endswith p ".js.gz"); [reflexivity|]. cbn.
    destruct (endswith p ".wasm.gz"); [reflexivity|]. cbn.
    destruct (endswith p ".data.gz"); [reflexivity|]. cbn.
    destruct (endswith p ".json.gz"); reflexivity.
Qed.

(** It then returns: the decided headers are sent and the parent finalizes. *)
Lemma end_headers_returns {H : Type} `{AttrStable H} (self : H) (p : string) :
  path_attr self = Some p ->
  end_headers self =
    ok (obj_super_end_headers (obj_send_headers (header_decision p) self)).
Proof.
  intros Hp. rewrite (end_headers_assigned self p Hp).
  rewrite (@end_headers_simulation H as_handler as_handler_stable self).
  cbn. now rewrite Hp.
Qed.


Lemma header_decision_in_table (p : string) :
  In (header_decision p) policy_table.
Proof.
  rewrite header_decision_eq. unfold content_type_for, policy_table.
  cbn [append].
  repeat match goal with
         | |- context [if ?b then _ else _] => destruct b
         end; cbn; tauto.
Qed.

Lemma header_decision_short (p : string) :
  String.length p < 3 -> header_decision p = [].
Proof.
  intros Hshort. rewrite header_decision_eq.
  now rewrite !endswith_short by (cbn; lia).
Qed.

Lemma obj_send_headers_calls (hs : list (string * string)) :
  forall r : object_recorder,
    obj_send_headers hs r =
      {| obj_path := obj_path r;
         obj_calls := (obj_calls r ++ map header_call hs)%list |}.
Proof.
  unfold obj_send_headers.
  induction hs as [|kv hs IH]; intros [target calls]; cbn.
  - now rewrite app_nil_r.
  - rewrite IH. cbn. now rewrite <- app_assoc.
Qed.

End Lookup.

(** ** Properties of the header policy *)

Import PyStr Server.

(** C1: a target ending in ".br" gets Content-Encoding: br, one ending in
    ".gz" gets Content-Encoding: gzip, and in each case only such a target
    does; the comparison is exact and case-sensitive, so a target ending in
    ".BR" or ".GZ" gets no header at all. *)
Theorem content_encoding_follows_suffix (p : string) :
  (ends_with p ".br" <-> In ("Content-Encoding", "br") (header_decision p)) /\
  (ends_with p ".gz" <-> In ("Content-Encoding", "gzip") (header_decision p)) /\
  (forall pre : string,
     header_decision (pre ++ ".BR") = [] /\ header_decision (pre ++ ".GZ") = []).
Proof.
  repeat split.
  - apply content_encoding_br_sent.
  - intros Hin. now apply endswith_spec, content_encoding_br_only.
  - apply content_encoding_gzip_sent.
  - apply content_encoding_gzip_only.
  - rewrite header_decision_eq. now eval_suffix_tests.
  - rewrite header_decision_eq. now eval_suffix_tests.
Qed.

(** C2: a target ending in ".js.br" or ".js.gz" gets exactly one Content-Type
    header, application/javascript; ".wasm.br"/".wasm.gz" gets
    application/wasm; ".data.br"/".data.gz" gets application/octet-stream;
    ".json.br"/".json.gz" gets application/json. *)
Theorem content_type_by_asset_kind (p : string) :
  (ends_with p ".js.br" \/ ends_with p ".js.gz" ->
     values_of "Content-Type" (header_decision p) = ["application/javascript"]) /\
  (ends_with p ".wasm.br" \/ ends_with p ".wasm.gz" ->
     values_of "Content-Type" (header_decision p) = ["application/wasm"]) /\
  (ends_with p ".data.br" \/ ends_with p ".data.gz" ->
     values_of "Content-Type" (header_decision p) = ["application/octet-stream"]) /\
  (ends_with p ".json.br" \/ ends_with p ".json.gz" ->
     values_of "Content-Type" (header_decision p) = ["application/json"]).
Proof.
  rewrite header_decision_eq. unfold content_type_for.
  repeat split; intros [[pre ->]|[pre ->]]; now eval_suffix_tests.
Qed.

(** C3: a target ending in ".br" but in none of ".js.br", ".wasm.br",
    ".data.br", ".json.br" gets the Content-Encoding header and no
    Content-Type header; likewise for ".gz"; ".css.br" is such a target. *)
Theorem encoding_without_content_type (p : string) :
  (ends_with p ".br" ->
   ~ ends_with p ".js.br" -> ~ ends_with p ".wasm.br" ->
   ~ ends_with p ".data.br" -> ~ ends_with p ".json.br" ->
     header_decision p = [("Content-Encoding", "br")]) /\
  (ends_with p ".gz" ->
   ~ ends_with p ".js.gz" -> ~ ends_with p ".wasm.gz" ->
   ~ ends_with p ".data.gz" -> ~ ends_with p ".json.gz" ->
     header_decision p = [("Content-Encoding", "gzip")]) /\
  (forall pre : string,
     header_decision (pre ++ ".css.br") = [("Content-Encoding", "br")]).
Proof.
  repeat split.
  - intros Hbr Hjs Hwasm Hdata Hjson. rewrite header_decision_eq.
    apply endswith_spec in Hbr. rewrite Hbr.
    now rewrite (content_type_for_default p ".br").
  - intros Hgz Hjs Hwasm Hdata Hjson. rewrite header_decision_eq.
    rewrite (gz_not_br p Hgz).
    apply endswith_spec in Hgz. rewrite Hgz.
    now rewrite (content_type_for_default p ".gz").
  - intros pre. rewrite header_decision_eq.
    rewrite (endswith_append_tail pre ".css.br" ".br") by (cbn; lia).
    change (endswith ".css.br" ".br") with true; cbv iota.
    rewrite content_type_for_default; [reflexivity|..];
      intros Hlong; refute_suffix.
Qed.

(** C4: a target ending in neither ".br" nor ".gz" gets no header from this
    handler: the decision is empty, and on a handler with any history the
    only call a run adds is the parent's finalization. *)
Theorem no_headers_without_suffix (p : string) :
  ~ ends_with p ".br" -> ~ ends_with p ".gz" ->
  header_decision p = [] /\
  (forall r : recorder, rec_path r = p -> added_calls r = [EndHeaders]).
Proof.
  intros Hbr Hgz. apply endswith_false in Hbr, Hgz.
  assert (Hnone : header_decision p = [])
    by now rewrite header_decision_eq, Hbr, Hgz.
  split; [exact Hnone|].
  intros r <-. now rewrite added_calls_eq, Hnone.
Qed.

Lemma no_headers_without_suffix_index_html :
  header_decision "/index.html" = [] /\
  (forall r : recorder,
     rec_path r = "/index.html" -> added_calls r = [EndHeaders]).
Proof.
  apply (no_headers_without_suffix "/index.html");
    apply endswith_false; reflexivity.
Defined.

Example no_headers_data_bin :
  added_calls (Recorder "/data.bin" [SendResponse 200]) = [EndHeaders].
Proof. reflexivity. Qed.

(** C5: the ".br" and ".gz" branches exclude each other: every target gets
    at most one Content-Encoding header, never both br and gzip; a target
    ending in ".br.gz" gets gzip only and one ending in ".gz.br" gets br
    only. *)
Theorem at_most_one_content_encoding (p : string) :
  List.length (values_of "Content-Encoding" (header_decision p)) <= 1 /\
  ~ (In ("Content-Encoding", "br") (header_decision p) /\
     In ("Content-Encoding", "gzip") (header_decision p)) /\
  (forall pre : string,
     values_of "Content-Encoding" (header_decision (pre ++ ".br.gz")) = ["gzip"] /\
     values_of "Content-Encoding" (header_decision (pre ++ ".gz.br")) = ["br"]).
Proof.
  split; [|split].
  - rewrite content_encoding_values.
    destruct (endswith p ".br"); [|destruct (endswith p ".gz")]; cbn; lia.
  - intros [Hbr Hgz].
    apply content_encoding_br_only in Hbr.
    apply content_encoding_gzip_only in Hgz.
    rewrite (gz_not_br p Hgz) in Hbr. discriminate Hbr.
  - intros pre. rewrite !content_encoding_values. now eval_suffix_tests.
Qed.

(** C6: on every path through [end_headers] the parent's [end_headers] runs
    exactly once, after the header insertions, and nothing else is done to
    the response.  On any handler, a run is the decided headers passed to
    [send_header] followed by the parent's finalization, so whatever
    [send_header] leaves alone (status line, body) reaches the parent as it
    was.  On the recorder, the calls made before (the status line and the
    headers the parent class queued) stay in place, only header calls and one
    finalization are added, and the finalization comes last. *)
Theorem parent_finalization_runs_once
    {H : Type} `{PathStable H} (self : H) (r : recorder) :
  end_headers self =
    super_end_headers (send_headers (header_decision (path self)) self) /\
  (forall (O : Type) (obs : H -> O),
     (forall keyword value h, obs (send_header keyword value h) = obs h) ->
     obs (send_headers (header_decision (path self)) self) = obs self) /\
  rec_calls (end_headers r) =
    (rec_calls r ++ map header_call (header_decision (rec_path r))
       ++ [EndHeaders])%list /\
  finalizations (added_calls r) = 1 /\
  rec_path (end_headers r) = rec_path r.
Proof.
  split; [apply end_headers_simulation|].
  split; [intros O obs Hobs; now apply send_headers_frame|].
  split; [apply end_headers_calls|].
  split; [|apply end_headers_path].
  rewrite added_calls_eq, finalizations_app, finalizations_header_calls.
  reflexivity.
Qed.

Lemma parent_finalization_runs_once_served :
  rec_calls (end_headers served_app_js) =
    [SendResponse 200;
     SendHeader "Content-type" "application/octet-stream";
     SendHeader "Content-Length" "1024";
     SendHeader "Content-Encoding" "br";
     SendHeader "Content-Type" "application/javascript";
     EndHeaders] /\
  finalizations (added_calls served_app_js) = 1.
Proof.
  destruct (@parent_finalization_runs_once recorder recorder_handler
              recorder_path_stable served_app_js served_app_js)
    as (_ & _ & Hcalls & Honce & _).
  split; [exact Hcalls | exact Honce].
Defined.

(** C7: for every request target the method returns and does not raise.  On
    any handler object whose [path] is assigned, be it the empty string or a
    string shorter than every suffix, each lookup and each test succeeds, and
    the run is the decided headers sent through [send_header] followed by
    the parent's finalization; the decided headers are one of the rows of
    the policy, and none at all for a target shorter than three
    characters. *)
Theorem end_headers_never_raises
    {H : Type} `{Lookup.AttrStable H} (self : H) (p : string) :
  Lookup.path_attr self = Some p ->
  Lookup.end_headers self =
    Lookup.ok (Lookup.obj_super_end_headers
                 (Lookup.obj_send_headers (header_decision p) self)) /\
  In (header_decision p) policy_table /\
  (String.length p < 3 -> header_decision p = []).
Proof.
  intros Hp. split; [now apply Lookup.end_headers_returns|].
  split; [apply Lookup.header_decision_in_table|].
  apply Lookup.header_decision_short.
Qed.

Lemma end_headers_never_raises_empty_target :
  Lookup.end_headers (Lookup.reply_in_progress (Some "") 200 []) =
    Lookup.ok (Lookup.reply_finalized (Some "") 200 [] []) /\
  header_decision "" = [].
Proof.
  destruct (@end_headers_never_raises Lookup.object_recorder
              Lookup.object_recorder_handler Lookup.object_recorder_stable
              (Lookup.reply_in_progress (Some "") 200 []) "" eq_refl)
    as (Hreturns & _ & Hshort).
  split; [exact Hreturns | apply Hshort; cbn; lia].
Defined.

(** C8: the decision depends on the request target alone.  Two handlers
    with the same target, whatever was done to each before, get the same
    calls added, namely those of [header_decision] for that target; and a
    second run on the same handler adds what the first one added. *)
Theorem header_decision_stateless (r1 r2 : recorder) :
  rec_path r1 = rec_path r2 ->
  added_calls r1 = added_calls r2 /\
  headers_of (added_calls r1) = header_decision (rec_path r2) /\
  added_calls (end_headers r1) = added_calls r1.
Proof.
  intros Hpath. rewrite !added_calls_eq, end_headers_path, Hpath.
  split; [reflexivity|]. split; [|reflexivity].
  rewrite headers_of_app, headers_of_header_calls. cbn.
  apply app_nil_r.
Qed.

Lemma header_decision_stateless_after_404 :
  added_calls (fresh "/app.js.br") =
    added_calls (Recorder "/app.js.br"
                   [SendResponse 404; SendHeader "Connection" "close";
                    EndHeaders; Write "not found"]) /\
  headers_of (added_calls (fresh "/app.js.br")) = header_decision "/app.js.br" /\
  added_calls (end_headers (fresh "/app.js.br")) =
    added_calls (fresh "/app.js.br").
Proof.
  apply (header_decision_stateless (fresh "/app.js.br")
           (Recorder "/app.js.br"
              [SendResponse 404; SendHeader "Connection" "close";
               EndHeaders; Write "not found"])).
  reflexivity.
Defined.

(** C9: the tests look at the whole request target, query string or
    fragment included.  When what follows the "?" (or "#") ends in neither
    ".br" nor ".gz", no header is sent, whatever the file part is:
    "/app.js.br?v=1" gets none. *)
Theorem query_string_hides_suffix (file query : string) :
  ~ ends_with query ".br" -> ~ ends_with query ".gz" ->
  header_decision (file ++ "?" ++ query) = [] /\
  header_decision (file ++ "#" ++ query) = [].
Proof.
  intros Hbr Hgz.
  split; rewrite header_decision_eq.
  - assert (Hb : endswith (file ++ "?" ++ query) ".br" = false).
    { apply endswith_false. intros Hends. apply Hbr.
      now apply (ends_with_after "?" ".br" query eq_refl file). }
    assert (Hg : endswith (file ++ "?" ++ query) ".gz" = false).
    { apply endswith_false. intros Hends. apply Hgz.
      now apply (ends_with_after "?" ".gz" query eq_refl file). }
    now rewrite Hb, Hg.
  - assert (Hb : endswith (file ++ "#" ++ query) ".br" = false).
    { apply endswith_false. intros Hends. apply Hbr.
      now apply (ends_with_after "#" ".br" query eq_refl file). }
    assert (Hg : endswith (file ++ "#" ++ query) ".gz" = false).
    { apply endswith_false. intros Hends. apply Hgz.
      now apply (ends_with_after "#" ".gz" query eq_refl file). }
    now rewrite Hb, Hg.
Qed.

Lemma query_string_hides_suffix_app_js :
  header_decision "/app.js.br?v=1" = [] /\
  header_decision "/app.js.br#v=1" = [].
Proof.
  apply (query_string_hides_suffix "/app.js.br" "v=1");
    apply endswith_false; reflexivity.
Defined.

(** C10: the override reads the target and never the outcome.  Whatever
    status line the parent class has queued, 404 included, and whatever
    headers of its own, a reply it finalizes through [end_headers] on a
    handler whose [path] is assigned gets exactly the headers decided for
    the target, after the parent's and before the finalization: a target
    ending in ".br" gets Content-Encoding: br and one ending in ".gz" gets
    Content-Encoding: gzip. *)
Theorem headers_sent_on_error_responses
    (p : string) (code : nat) (queued : list (string * string)) :
  Lookup.end_headers (Lookup.reply_in_progress (Some p) code queued) =
    Lookup.ok
      (Lookup.reply_finalized (Some p) code queued (header_decision p)) /\
  (ends_with p ".br" ->
     In (SendHeader "Content-Encoding" "br")
        (Lookup.obj_calls
           (Lookup.reply_finalized (Some p) code queued (header_decision p)))) /\
  (ends_with p ".gz" ->
     In (SendHeader "Content-Encoding" "gzip")
        (Lookup.obj_calls
           (Lookup.reply_finalized (Some p) code queued (header_decision p)))).
Proof.
  split; [|split].
  - rewrite (@Lookup.end_headers_returns Lookup.object_recorder
               Lookup.object_recorder_handler Lookup.object_recorder_stable
               (Lookup.reply_in_progress (Some p) code queued) p eq_refl).
    rewrite Lookup.obj_send_headers_calls. cbn.
    unfold Lookup.reply_finalized, Lookup.obj_record. cbn.
    now rewrite <- app_assoc.
  - intros Hbr. apply content_encoding_br_sent in Hbr.
    apply (in_map header_call) in Hbr. cbn.
    right. apply in_or_app; right. apply in_or_app; left. exact Hbr.
  - intros Hgz. apply content_encoding_gzip_sent in Hgz.
    apply (in_map header_call) in Hgz. cbn.
    right. apply in_or_app; right. apply in_or_app; left. exact Hgz.
Qed.

Lemma headers_sent_on_error_responses_404 :
  Lookup.end_headers
    (Lookup.reply_in_progress (Some "/missing.wasm.gz") 404
       [("Server", "SimpleHTTP/0.6 Python/3.11.2");
        ("Date", "Thu, 01 Jan 1970 00:00:00 GMT");
        ("Connection", "close");
        ("Content-Type", "text/html;charset=utf-8");
        ("Content-Length", "335")]) =
    Lookup.ok
      (Lookup.reply_finalized (Some "/missing.wasm.gz") 404
         [("Server", "SimpleHTTP/0.6 Python/3.11.2");
          ("Date", "Thu, 01 Jan 1970 00:00:00 GMT");
          ("Connection", "close");
          ("Content-Type", "text/html;charset=utf-8");
          ("Content-Length", "335")]
         [("Content-Encoding", "gzip");
          ("Content-Type", "application/wasm")]).
Proof.
  exact (proj1 (headers_sent_on_error_responses "/missing.wasm.gz" 404
                  [("Server", "SimpleHTTP/0.6 Python/3.11.2");
                   ("Date", "Thu, 01 Jan 1970 00:00:00 GMT");
                   ("Connection", "close");
                   ("Content-Type", "text/html;charset=utf-8");
                   ("Content-Length", "335")])).
Defined.

(** ** Further properties of the header policy *)

(** *** More on suffixes *)

Lemma append_assoc (s t u : string) : (s ++ t) ++ u = s ++ (t ++ u).
Proof. induction s as [|c s IH]; simpl; [reflexivity | now rewrite IH]. Qed.

(** Appending on the right can be undone. *)
Lemma append_cancel_r (e : string) : forall a b, a ++ e = b ++ e -> a = b.
Proof.
  induction a as [|c a IH]; intros [|d b] Heq; simpl in Heq.
  - reflexivity.
  - apply (f_equal String.length) in Heq. simpl in Heq.
    rewrite length_append in Heq. lia.
  - apply (f_equal String.length) in Heq. simpl in Heq.
    rewrite length_append in Heq. lia.
  - injection Heq as -> Heq. f_equal. now apply IH.
Qed.

Lemma bool_eq_iff (b1 b2 : bool) : (b1 = true <-> b2 = true) -> b1 = b2.
Proof. destruct b1, b2; intros [H1 H2]; auto; symmetry; auto. Qed.

(** A common ending can be dropped from both sides of a suffix test. *)
Lemma endswith_cancel (s k e : string) :
  endswith (s ++ e) (k ++ e) = endswith s k.
Proof.
  apply bool_eq_iff. rewrite !endswith_spec. split; intros [pre Hpre].
  - exists pre. rewrite <- append_assoc in Hpre.
    now apply append_cancel_r in Hpre.
  - exists pre. rewrite Hpre. apply append_assoc.
Qed.

(** A suffix free of [c] is tested on what follows [c] alone. *)
Lemma endswith_after (c : ascii) (suffix f q : string) :
  occurs c suffix = false ->
  endswith (f ++ String c q) suffix = endswith q suffix.
Proof.
  intros Hfree. apply bool_eq_iff. rewrite !endswith_spec. split.
  - now apply ends_with_after.
  - intros [pre ->]. exists (f ++ String c pre).
    rewrite append_assoc. reflexivity.
Qed.

Lemma all_occur_free (c : ascii) (s t : string) :
  all_occur s t = true -> occurs c t = false -> occurs c s = false.
Proof.
  intros Hall Hfree. induction s as [|d s IH]; simpl in *; [reflexivity|].
  apply andb_prop in Hall as [Hd Hall]. rewrite (IH Hall), orb_false_r.
  destruct (Ascii.eqb_spec c d) as [->|Hneq]; [|reflexivity].
  rewrite Hd in Hfree. discriminate Hfree.
Qed.

(** *** Which targets get which Content-Type *)

(** X1: a Content-Type header with value [v] is sent exactly when [v] is one
    of the four media types and the target ends in the matching double
    suffix; no other target, and no other value, gets one. *)
Theorem content_type_only_for_asset_kind (p v : string) :
  In ("Content-Type", v) (header_decision p) <->
    (v = "application/javascript" /\
       (ends_with p ".js.br" \/ ends_with p ".js.gz")) \/
    (v = "application/wasm" /\
       (ends_with p ".wasm.br" \/ ends_with p ".wasm.gz")) \/
    (v = "application/octet-stream" /\
       (ends_with p ".data.br" \/ ends_with p ".data.gz")) \/
    (v = "application/json" /\
       (ends_with p ".json.br" \/ ends_with p ".json.gz")).
Proof.
  split.
  - rewrite header_decision_eq. unfold content_type_for. cbn [append].
    destruct (endswith p ".br").
    + intros [Heq|Hin]; [discriminate Heq|]. revert Hin.
      destruct (endswith p ".js.br") eqn:Hjs;
        [|destruct (endswith p ".wasm.br") eqn:Hwasm;
          [|destruct (endswith p ".data.br") eqn:Hdata;
            [|destruct (endswith p ".json.br") eqn:Hjson]]];
        intros Hin; cbn in Hin;
        try (destruct Hin as [Heq|[]]; injection Heq as <-);
        try contradiction.
      * left. split; [reflexivity|]. left. now apply endswith_spec.
      * right; left. split; [reflexivity|]. left. now apply endswith_spec.
      * right; right; left. split; [reflexivity|]. left.
        now apply endswith_spec.
      * right; right; right. split; [reflexivity|]. left.
        now apply endswith_spec.
    + destruct (endswith p ".gz"); [|intros []].
      intros [Heq|Hin]; [discriminate Heq|]. revert Hin.
      destruct (endswith p ".js.gz") eqn:Hjs;
        [|destruct (endswith p ".wasm.gz") eqn:Hwasm;
          [|destruct (endswith p ".data.gz") eqn:Hdata;
            [|destruct (endswith p ".json.gz") eqn:Hjson]]];
        intros Hin; cbn in Hin;
        try (destruct Hin as [Heq|[]]; injection Heq as <-);
        try contradiction.
      * left. split; [reflexivity|]. right. now apply endswith_spec.
      * right; left. split; [reflexivity|]. right. now apply endswith_spec.
      * right; right; left. split; [reflexivity|]. right.
        now apply endswith_spec.
      * right; right; right. split; [reflexivity|]. right.
        now apply endswith_spec.
  - rewrite header_decision_eq. unfold content_type_for.
    intros [[-> Hp]|[[-> Hp]|[[-> Hp]|[-> Hp]]]];
      destruct Hp as [[pre ->]|[pre ->]]; eval_suffix_tests; tauto.
Qed.

(** X2: on any handler object, whatever its parent class does, a target
    ending in neither ".br" nor ".gz" makes the override the parent's
    [end_headers] and nothing more. *)
Theorem override_is_parent_off_suffix
    {H : Type} `{RequestHandler H} (self : H) :
  ~ ends_with (path self) ".br" -> ~ ends_with (path self) ".gz" ->
  end_headers self = super_end_headers self.
Proof.
  intros Hbr Hgz. apply endswith_false in Hbr, Hgz.
  unfold end_headers. now rewrite Hbr, Hgz.
Qed.

Lemma override_is_parent_off_suffix_index_html :
  end_headers (fresh "/index.html") = record EndHeaders (fresh "/index.html").
Proof.
  apply (@override_is_parent_off_suffix recorder recorder_handler
           (fresh "/index.html"));
    apply endswith_false; reflexivity.
Defined.

(** X3: the two branches dispatch alike.  For every stem, the Brotli and the
    Gzip variant of it get the same Content-Type headers after their
    Content-Encoding header. *)
Theorem content_type_same_for_both_codecs (stem : string) :
  exists content_type : list (string * string),
    header_decision (stem ++ ".br") =
      ("Content-Encoding", "br") :: content_type /\
    header_decision (stem ++ ".gz") =
      ("Content-Encoding", "gzip") :: content_type.
Proof.
  exists (content_type_for (stem ++ ".br") ".br").
  rewrite !header_decision_eq.
  rewrite (endswith_append stem ".br"), (endswith_append stem ".gz").
  rewrite (gz_not_br (stem ++ ".gz")) by (now exists stem).
  split; [reflexivity|]. f_equal.
  unfold content_type_for. now rewrite !endswith_cancel.
Qed.

(** *** Which part of the target is read *)

(** X4: a character that occurs in none of the tested suffixes cuts the
    target: what stands before it is ignored, and the decision is that of
    what follows it.  "/", "?" and "#" are such characters, so neither the
    directory nor the file named before a query string matters. *)
Theorem text_before_separator_ignored (c : ascii) (before after : string) :
  occurs c suffix_characters = false ->
  header_decision (before ++ String c after) = header_decision after.
Proof.
  intros Hsep.
  assert (Hfree : forall suffix,
            all_occur suffix suffix_characters = true ->
            endswith (before ++ String c after) suffix = endswith after suffix).
  { intros suffix Hall. apply endswith_after.
    now apply (all_occur_free c suffix suffix_characters). }
  rewrite !header_decision_eq. unfold content_type_for. cbn [append].
  now rewrite !Hfree by reflexivity.
Qed.

Lemma text_before_separator_ignored_query :
  header_decision "/index.html?download=game.wasm.br" =
    header_decision "download=game.wasm.br".
Proof.
  apply (text_before_separator_ignored "?" "/index.html"
           "download=game.wasm.br").
  reflexivity.
Defined.

Example directory_ignored :
  header_decision "/Build.br/game.data.gz" = header_decision "game.data.gz".
Proof.
  apply (text_before_separator_ignored "/" "/Build.br" "game.data.gz").
  reflexivity.
Qed.

(** X5: the decision reads the last eight characters of the target and no
    more; seven are not enough. *)
Theorem decision_reads_last_eight :
  (forall pre tail : string,
     8 <= String.length tail ->
     header_decision (pre ++ tail) = header_decision tail) /\
  (exists pre tail : string,
     String.length tail = 7 /\
     header_decision (pre ++ tail) <> header_decision tail).
Proof.
  split.
  - intros pre tail Hlen.
    rewrite !header_decision_eq. unfold content_type_for. cbn [append].
    now rewrite !(endswith_append_tail pre tail) by (cbn; lia).
  - exists ".", "wasm.br". split; [reflexivity|]. discriminate.
Qed.

(** *** When the method raises *)


